(** * TF-Agents: Normal projection network and categorical DQN test networks

    A shallow embedding of

    - [tf_agents/networks/normal_projection_network.py]
      ([tanh_squash_to_spec] and the class [NormalProjectionNetwork]), and
    - the two test networks of
      [tf_agents/agents/categorical_dqn/categorical_dqn_agent_test.py]
      ([DummyCategoricalNet] and [DummyCategoricalQRnnNetwork]).

    Tensors are dense, row-major arrays. The type of their components and
    the arithmetic on it are parameters ([Arith]): nothing is assumed about
    rounding. Two arithmetics are given, IEEE binary32 as the code runs it
    on [float32] tensors, and exact arithmetic on the real numbers.

    Every operation of the framework that can refuse its argument (a layer,
    a transform, [BatchSquash], [tf.reshape]) ends in an [Outcome]: a value
    or an exception. *)

From Stdlib Require Import String QArith Reals Lra Lia ZArith List Bool Arith.
From Stdlib Require Import SpecFloat.
Import ListNotations.
Close Scope Q_scope.

Set Implicit Arguments.
Set Warnings "-register-all".

(* ===================================================================== *)
(** * Exceptions and outcomes *)
(* ===================================================================== *)

(** The Python exceptions the modelled code can end in. [FrameworkError]
    stands for an error raised inside a TensorFlow operation. *)
Inductive Exn :=
| ValueError (msg : string)
| AttributeError (attr : string)
| AssertionError
| IndexError
| FrameworkError (op : string).

Inductive Outcome (A : Type) :=
| Returned (a : A)
| Raised (e : Exn).
Arguments Returned {A} a.
Arguments Raised {A} e.

(* ===================================================================== *)
(** * Tensors *)
(* ===================================================================== *)

Module Tensor.

Inductive DType := float32 | float64 | int32 | int64.

Definition dtype_eqb (a b : DType) : bool :=
  match a, b with
  | float32, float32 | float64, float64 | int32, int32 | int64, int64 => true
  | _, _ => false
  end.

Definition is_integer (d : DType) : bool :=
  match d with int32 | int64 => true | _ => false end.

(** The components of tensors and the arithmetic the code applies to
    them: the literal [2.0], the four operations, the order, and the
    framework's [tf.tanh], [tf.nn.softplus] and [tf.cast] on one
    component. *)
Class Arith := {
  scalar : Type;
  zero : scalar;
  two : scalar;
  add : scalar -> scalar -> scalar;
  sub : scalar -> scalar -> scalar;
  mul : scalar -> scalar -> scalar;
  div : scalar -> scalar -> scalar;
  leb : scalar -> scalar -> bool;
  tf_tanh : scalar -> scalar;
  tf_softplus : scalar -> scalar;
  cast_scalar : DType -> DType -> scalar -> scalar
}.

Section Ops.
Context {Ar : Arith}.

(** [tf.Tensor] (and [numpy.ndarray]): an element type, a static shape and
    the components in row-major order. *)
Record Tensor := mkTensor {
  dtype : DType;
  shape : list nat;
  data  : list scalar
}.

(** [TensorShape.num_elements()] for a fully defined shape. *)
Definition num_elements (s : list nat) : nat := fold_right Nat.mul 1%nat s.

Definition size (t : Tensor) : nat := num_elements (shape t).

(** A tensor holds exactly as many components as its shape announces. *)
Definition wf (t : Tensor) : Prop := length (data t) = size t.

(** Two tensors of the same dtype and shape (possibly different values). *)
Definition same_type (a b : Tensor) : Prop :=
  dtype a = dtype b /\ shape a = shape b.

(** [tf.zeros_like]. *)
Definition zeros_like (t : Tensor) : Tensor :=
  mkTensor (dtype t) (shape t) (repeat zero (size t)).

(** Apply a scalar function to every component. *)
Definition map_data (f : scalar -> scalar) (t : Tensor) : Tensor :=
  mkTensor (dtype t) (shape t) (map f (data t)).

(** [tf.cast]. *)
Definition cast (t : Tensor) (d : DType) : Tensor :=
  mkTensor d (shape t) (map (cast_scalar (dtype t) d) (data t)).

(** ** [tf.reshape]

    The requested shape is a list of integers in which [-1] stands for
    the one dimension to be inferred. *)

Definition is_wild (d : Z) : bool := (d =? -1)%Z.

Definition known_product (req : list Z) : nat :=
  num_elements (map Z.to_nat (filter (fun d => negb (is_wild d)) req)).

Definition count_wild (req : list Z) : nat :=
  length (filter is_wild req).

Definition resolve (fill : nat) (req : list Z) : list nat :=
  map (fun d => if is_wild d then fill else Z.to_nat d) req.

(** [None] is the framework's refusal: a negative dimension other than
    [-1], more than one [-1], a [-1] that cannot be inferred, or a
    component count that does not match. *)
Definition reshape (t : Tensor) (req : list Z) : option Tensor :=
  if existsb (fun d => (d <? -1)%Z) req then None else
  match count_wild req with
  | O =>
      if Nat.eqb (known_product req) (size t)
      then Some (mkTensor (dtype t) (resolve 0 req) (data t))
      else None
  | S O =>
      let k := known_product req in
      if Nat.eqb k 0 then None
      else if Nat.eqb (size t mod k) 0
           then Some (mkTensor (dtype t) (resolve (size t / k) req) (data t))
           else None
  | _ => None
  end.

(** ** Broadcasting, as numpy and TensorFlow do it

    Shapes are aligned at their last dimension; a dimension of one is
    stretched, a missing leading dimension counts as one. The helpers work
    on reversed shapes, last dimension first. *)

Fixpoint broadcast_rev (a b : list nat) : option (list nat) :=
  match a, b with
  | [], _ => Some b
  | _, [] => Some a
  | x :: a', y :: b' =>
      match broadcast_rev a' b' with
      | None => None
      | Some r =>
          if Nat.eqb x y then Some (x :: r)
          else if Nat.eqb x 1 then Some (y :: r)
          else if Nat.eqb y 1 then Some (x :: r)
          else None
      end
  end.

Definition broadcast_shapes (a b : list nat) : option (list nat) :=
  option_map (@rev nat) (broadcast_rev (rev a) (rev b)).

(** The coordinates of flat position [n] in a tensor of the given shape,
    last coordinate first. *)
Fixpoint unravel_rev (shape_rev : list nat) (n : nat) : list nat :=
  match shape_rev with
  | [] => []
  | d :: s => (n mod d) :: unravel_rev s (n / d)
  end.

(** The coordinates of an operand that meet the given coordinates of the
    result: stretched dimensions read their only entry. *)
Fixpoint project_rev (shape_rev idx_rev : list nat) : list nat :=
  match shape_rev, idx_rev with
  | d :: s, i :: r => (if Nat.eqb d 1 then 0 else i) :: project_rev s r
  | _, _ => []
  end.

(** The flat position of coordinates, last coordinate first. *)
Fixpoint ravel_rev (shape_rev idx_rev : list nat) : nat :=
  match shape_rev, idx_rev with
  | d :: s, i :: r => i + d * ravel_rev s r
  | _, _ => 0
  end.

(** The component of [t] that meets flat position [n] of a result of
    shape [result_shape]. *)
Definition broadcast_get (t : Tensor) (result_shape : list nat) (n : nat)
  : scalar :=
  let own := rev (shape t) in
  nth (ravel_rev own (project_rev own (unravel_rev (rev result_shape) n)))
      (data t) zero.

End Ops.

End Tensor.
Import Tensor.

(* ===================================================================== *)
(** * Effects *)
(* ===================================================================== *)

(** A computation over a mutable store [S]: it always hands back the store
    as it was left, also when it raises. *)
Definition Eff (S A : Type) : Type := S -> S * Outcome A.

Definition ret {S A} (a : A) : Eff S A := fun s => (s, Returned a).

Definition bind {S A B} (m : Eff S A) (k : A -> Eff S B) : Eff S B :=
  fun s => match m s with
           | (s', Returned a) => k a s'
           | (s', Raised e) => (s', Raised e)
           end.

Definition raise {S A} (e : Exn) : Eff S A := fun s => (s, Raised e).

Definition get {S} : Eff S S := fun s => (s, Returned s).

Definition modify {S} (f : S -> S) : Eff S unit := fun s => (f s, Returned tt).

(** Lift an operation that may be refused by the framework. *)
Definition require {S A} (op : string) (o : option A) : Eff S A :=
  match o with
  | Some a => ret a
  | None => raise (FrameworkError op)
  end.

Declare Scope eff_scope.
Delimit Scope eff_scope with eff.
Notation "x <- c ;; k" := (bind c (fun x => k))
  (at level 61, c at next level, right associativity) : eff_scope.
Notation "c ;; k" := (bind c (fun _ => k))
  (at level 61, right associativity) : eff_scope.
Open Scope eff_scope.

(* ===================================================================== *)
(** * Specs and nested structures *)
(* ===================================================================== *)

(** [tensor_spec.TensorSpec]. *)
Record TensorSpec := mkTensorSpec {
  ts_shape : list nat;
  ts_dtype : DType
}.

(** The structures [tf.nest] walks: a single value, or a list or tuple of
    structures. *)
Inductive Nest (A : Type) :=
| Leaf (a : A)
| Seq (items : list (Nest A)).
Arguments Leaf {A} a.
Arguments Seq {A} items.

(** [tf.nest.flatten]. *)
Fixpoint flatten {A} (n : Nest A) : list A :=
  match n with
  | Leaf a => [a]
  | Seq items => flat_map flatten items
  end.

Section Specs.
Context {Ar : Arith}.

(** [tensor_spec.BoundedTensorSpec]. The bounds are numpy arrays. *)
Record BoundedTensorSpec := mkBoundedTensorSpec {
  spec_shape : list nat;
  spec_dtype : DType;
  minimum : Tensor;
  maximum : Tensor
}.

(* ===================================================================== *)
(** * [tanh_squash_to_spec] *)
(* ===================================================================== *)

(** The shape of [means + magnitudes * tf.tanh(inputs)]: the two bounds
    broadcast against each other, then against the input. *)
Definition squash_shape (inputs : Tensor) (spec : BoundedTensorSpec)
  : option (list nat) :=
  match broadcast_shapes (shape (maximum spec)) (shape (minimum spec)) with
  | None => None
  | Some bounds_shape => broadcast_shapes bounds_shape (shape inputs)
  end.

Section At.
Variables (spec : BoundedTensorSpec) (result_shape : list nat) (n : nat).

(** [(spec.maximum + spec.minimum) / 2.0] at flat position [n] of the
    result. *)
Definition means_at : scalar :=
  div (add (broadcast_get (maximum spec) result_shape n)
           (broadcast_get (minimum spec) result_shape n)) two.

(** [(spec.maximum - spec.minimum) / 2.0] at flat position [n] of the
    result. *)
Definition magnitudes_at : scalar :=
  div (sub (broadcast_get (maximum spec) result_shape n)
           (broadcast_get (minimum spec) result_shape n)) two.

End At.

(** Maps inputs with arbitrary range to range defined by spec using tanh.
    [tf.tanh] takes floating-point tensors only; operands whose shapes do
    not broadcast are refused. *)
Definition tanh_squash_to_spec (inputs : Tensor) (spec : BoundedTensorSpec)
  : Outcome Tensor :=
  match squash_shape inputs spec with
  | None => Raised (ValueError "operands could not be broadcast together")
  | Some result_shape =>
      if is_integer (dtype inputs) then Raised (FrameworkError "tf.tanh")
      else
        Returned
          (mkTensor (dtype inputs) result_shape
             (map (fun n =>
                     add (means_at spec result_shape n)
                         (mul (magnitudes_at spec result_shape n)
                              (tf_tanh (broadcast_get inputs result_shape n))))
                  (seq 0 (num_elements result_shape))))
  end.

(** A component lies within the bounds that meet it. *)
Definition within_bounds (y : Tensor) (spec : BoundedTensorSpec) : Prop :=
  forall n, (n < num_elements (shape y))%nat ->
    leb (broadcast_get (minimum spec) (shape y) n) (nth n (data y) zero) = true
    /\
    leb (nth n (data y) zero) (broadcast_get (maximum spec) (shape y) n) = true.

(** Every lower bound is at most the upper bound it is paired with in a
    result of the given shape. *)
Definition bounds_ordered (spec : BoundedTensorSpec) (result_shape : list nat)
  : Prop :=
  forall n, (n < num_elements result_shape)%nat ->
    leb (broadcast_get (minimum spec) result_shape n)
        (broadcast_get (maximum spec) result_shape n) = true.

(* ===================================================================== *)
(** * Distributions and distribution specs *)
(* ===================================================================== *)

(** Modelled from the spec: [distribution_utils.scale_distribution_to_spec]
    is not among the sources at hand; the distribution it wraps around a
    base distribution ("squashing to an action-space range") is kept
    symbolic as [ScaledToSpec]. [Normal] is [tfp.distributions.Normal]. *)
Inductive Distribution :=
| Normal (loc scale : Tensor)
| ScaledToSpec (base : Distribution) (spec : BoundedTensorSpec).

Definition scale_distribution_to_spec := ScaledToSpec.

(** The parameters of the Normal distribution underneath. *)
Fixpoint base_loc (d : Distribution) : Tensor :=
  match d with
  | Normal loc _ => loc
  | ScaledToSpec b _ => base_loc b
  end.

Fixpoint base_scale (d : Distribution) : Tensor :=
  match d with
  | Normal _ scale => scale
  | ScaledToSpec b _ => base_scale b
  end.

(** [distribution_spec.DistributionSpec]: a builder, the specs of its
    parameters and the spec of its samples. *)
Record DistributionSpec := mkDistributionSpec {
  builder : Tensor -> Tensor -> Distribution;
  input_params_spec : list (string * TensorSpec);
  ds_sample_spec : BoundedTensorSpec
}.

(** [DistributionSpec.build_distribution(loc=..., scale=...)]. *)
Definition build_distribution (ds : DistributionSpec) (loc scale : Tensor)
  : Distribution :=
  builder ds loc scale.

(** [tfp.distributions.Normal.param_static_shapes]: both parameters have
    the shape of a sample. *)
Definition param_static_shapes (sample_shape : list nat)
  : list (string * list nat) :=
  [("loc"%string, sample_shape); ("scale"%string, sample_shape)].

(* ===================================================================== *)
(** * The layers the network is built from *)
(* ===================================================================== *)

(** A built Keras layer, together with its variables, is a function on
    tensors that may refuse its argument. *)
Definition Layer := Tensor -> Outcome Tensor.

Definition Activation := Tensor -> Outcome Tensor.
Definition MeanTransform := Tensor -> BoundedTensorSpec -> Outcome Tensor.
Definition StdTransform := Tensor -> Outcome Tensor.

(** The arguments of [tf.keras.layers.Dense] as the network passes them;
    the Python floats among them are rationals. *)
Record DenseConfig := mkDenseConfig {
  units : nat;
  activation : option Activation;
  kernel_scale : Q;          (* VarianceScaling(scale=...) *)
  bias_value : Q;            (* Zeros() or Constant(value=...) *)
  layer_name : string
}.

(** What the network takes from the rest of the library: the Dense layer
    of Keras, [bias_layer.BiasLayer] and [network_utils.BatchSquash]. A
    [BatchSquash] object remembers what [flatten] saw, for [unflatten]. *)
Class Framework := {
  keras_Dense : DenseConfig -> Layer;
  BiasLayer : Q -> Layer;
  BatchSquash : Type;
  new_BatchSquash : nat -> BatchSquash;
  bs_flatten : BatchSquash -> Tensor -> Outcome (BatchSquash * Tensor);
  bs_unflatten : BatchSquash -> Tensor -> Outcome Tensor
}.

(** What these operations have in common with every implementation:
    where they return, the shape of what a Dense layer returns depends on
    the shape of its argument only, and what [flatten] remembers and the
    dtype and shape of what it returns depend on the dtype and shape of its
    argument only. *)
Class FrameworkLaws (F : Framework) : Prop := {
  dense_shape_determined : forall cfg x y px py,
    shape x = shape y ->
    keras_Dense cfg x = Returned px -> keras_Dense cfg y = Returned py ->
    shape px = shape py;
  flatten_same_type : forall b x y bx fx by_ fy,
    same_type x y ->
    bs_flatten b x = Returned (bx, fx) ->
    bs_flatten b y = Returned (by_, fy) ->
    bx = by_ /\ same_type fx fy
}.

(** The shape of what the mean transform returns depends on the shape of
    its argument only, as with [tanh_squash_to_spec]. *)
Definition shape_determined (f : option MeanTransform)
  (spec : BoundedTensorSpec) : Prop :=
  match f with
  | Some g => forall t t' m m',
      shape t = shape t' ->
      g t spec = Returned m -> g t' spec = Returned m' ->
      shape m = shape m'
  | None => True
  end.

(** [tf.nn.softplus]; it takes floating-point tensors only. *)
Definition softplus (t : Tensor) : Outcome Tensor :=
  if is_integer (dtype t) then Raised (FrameworkError "tf.nn.softplus")
  else Returned (map_data tf_softplus t).

(* ===================================================================== *)
(** * [NormalProjectionNetwork] *)
(* ===================================================================== *)

(** The values held by the attributes of a network object. [None] inside
    a value is Python's [None]. *)
Inductive Value :=
| VBool (b : bool)
| VName (s : string)
| VSampleSpec (s : Nest BoundedTensorSpec)
| VOutputSpec (ds : DistributionSpec)
| VMeanTransform (f : option MeanTransform)
| VStdTransform (f : option StdTransform)
| VLayer (l : option Layer).

(** The object under construction: its attribute dictionary, the most
    recent assignment first. *)
Definition Object := list (string * Value).

Fixpoint getattr (self : Object) (name : string) : option Value :=
  match self with
  | [] => None
  | (k, v) :: rest => if String.eqb k name then Some v else getattr rest name
  end.

Definition setattr (name : string) (v : Value) : Eff Object unit :=
  modify (fun self => (name, v) :: self).

(** Typed reads of an attribute; a missing attribute is an
    [AttributeError]. *)
Definition attr_bool {S} (self : Object) (name : string) : Eff S bool :=
  match getattr self name with
  | Some (VBool b) => ret b
  | _ => raise (AttributeError name)
  end.

Definition attr_sample_spec {S} (self : Object) (name : string)
  : Eff S (Nest BoundedTensorSpec) :=
  match getattr self name with
  | Some (VSampleSpec s) => ret s
  | _ => raise (AttributeError name)
  end.

Definition attr_output_spec {S} (self : Object) (name : string)
  : Eff S DistributionSpec :=
  match getattr self name with
  | Some (VOutputSpec ds) => ret ds
  | _ => raise (AttributeError name)
  end.

Definition attr_mean_transform {S} (self : Object) (name : string)
  : Eff S (option MeanTransform) :=
  match getattr self name with
  | Some (VMeanTransform f) => ret f
  | _ => raise (AttributeError name)
  end.

Definition attr_std_transform {S} (self : Object) (name : string)
  : Eff S (option StdTransform) :=
  match getattr self name with
  | Some (VStdTransform f) => ret f
  | _ => raise (AttributeError name)
  end.

(** Reading a layer in order to call it: [None] is not callable. *)
Definition attr_layer {S} (self : Object) (name : string) : Eff S Layer :=
  match getattr self name with
  | Some (VLayer (Some l)) => ret l
  | _ => raise (AttributeError name)
  end.

(** [sample_spec.shape] and [sample_spec.dtype]: only a spec has them, a
    list or tuple of specs has not. *)
Definition spec_attr {S} (sample_spec : Nest BoundedTensorSpec)
  (attr : string) : Eff S BoundedTensorSpec :=
  match sample_spec with
  | Leaf spec => ret spec
  | Seq _ => raise (AttributeError attr)
  end.

(** The arguments of the constructor. *)
Record InitArgs := mkInitArgs {
  sample_spec : Nest BoundedTensorSpec;
  activation_fn : option Activation;
  init_means_output_factor : Q;
  std_bias_initializer_value : Q;
  mean_transform : option MeanTransform;
  std_transform : option StdTransform;
  state_dependent_std : bool;
  scale_distribution : bool;
  name : string
}.

(** The constructor called with [sample_spec] alone. *)
Definition default_args (s : Nest BoundedTensorSpec) : InitArgs :=
  {| sample_spec := s;
     activation_fn := None;
     init_means_output_factor := 0.1%Q;
     std_bias_initializer_value := 0%Q;
     mean_transform := Some tanh_squash_to_spec;
     std_transform := Some softplus;
     state_dependent_std := false;
     scale_distribution := false;
     name := "NormalProjectionNetwork" |}.

(** [NormalProjectionNetwork._output_distribution_spec]. The builder reads
    [self._scale_distribution] when it runs; the attribute is assigned once,
    before this method is called, so the value found now is the one the
    builder will see. *)
Definition _output_distribution_spec (sample_spec : Nest BoundedTensorSpec)
  : Eff Object DistributionSpec :=
  spec <- spec_attr sample_spec "shape" ;;
  let input_param_shapes := param_static_shapes (spec_shape spec) in
  let input_param_spec :=
    map (fun ks => (fst ks, mkTensorSpec (snd ks) (spec_dtype spec)))
        input_param_shapes in
  self <- get ;;
  scale <- attr_bool self "_scale_distribution" ;;
  let distribution_builder loc scale_ :=
    let distribution := Normal loc scale_ in
    if (scale : bool)
    then scale_distribution_to_spec distribution spec
    else distribution in
  ret (mkDistributionSpec distribution_builder input_param_spec spec).

(** The constructor of the base class [network.DistributionNetwork], which
    is not among the sources at hand, is taken to store the output spec and
    the name it is given: [call] reads [self.output_spec] back. *)
Definition super_init (output_spec : DistributionSpec) (name : string)
  : Eff Object unit :=
  setattr "_output_spec" (VOutputSpec output_spec) ;;
  setattr "_name" (VName name).

Definition single_spec_message : string :=
  "Normal Projection network only supports single spec samples.".

Section Network.
Context {F : Framework}.

(** [NormalProjectionNetwork.__init__], run on an object without
    attributes. *)
Definition __init__ (a : InitArgs) : Eff Object unit :=
  (if negb (length (flatten (sample_spec a)) =? 1)%nat
   then raise (ValueError single_spec_message)
   else ret tt) ;;
  setattr "_scale_distribution" (VBool (scale_distribution a)) ;;
  output_spec <- _output_distribution_spec (sample_spec a) ;;
  super_init output_spec (name a) ;;
  setattr "_sample_spec" (VSampleSpec (sample_spec a)) ;;
  setattr "_mean_transform" (VMeanTransform (mean_transform a)) ;;
  setattr "_std_transform" (VStdTransform (std_transform a)) ;;
  setattr "_state_dependent_std" (VBool (state_dependent_std a)) ;;
  spec <- spec_attr (sample_spec a) "shape" ;;
  setattr "_means_projection_layer"
    (VLayer (Some (keras_Dense
       {| units := num_elements (spec_shape spec);
          activation := activation_fn a;
          kernel_scale := init_means_output_factor a;
          bias_value := 0%Q;
          layer_name := "means_projection_layer" |}))) ;;
  setattr "_stddev_projection_layer" (VLayer None) ;;
  self <- get ;;
  dependent <- attr_bool self "_state_dependent_std" ;;
  if (dependent : bool) then
    setattr "_stddev_projection_layer"
      (VLayer (Some (keras_Dense
         {| units := num_elements (spec_shape spec);
            activation := activation_fn a;
            kernel_scale := init_means_output_factor a;
            bias_value := std_bias_initializer_value a;
            layer_name := "stddev_projection_layer" |})))
  else
    setattr "_bias" (VLayer (Some (BiasLayer (std_bias_initializer_value a)))).

(** Construction from scratch. *)
Definition construct (a : InitArgs) : Object * Outcome unit :=
  __init__ a [].

(** ** [NormalProjectionNetwork.call]

    The store of [call] is the list of operations applied to tensors so
    far, oldest first. *)
Definition Trace := list string.

(** Record an operation that cannot fail, and return its result. *)
Definition op {A} (name : string) (result : A) : Eff Trace A :=
  fun tr => (tr ++ [name], Returned result).

(** Record an operation and end as it ends. *)
Definition run {A} (name : string) (outcome : Outcome A) : Eff Trace A :=
  fun tr => (tr ++ [name], outcome).

(** A computation only adds to the trace. *)
Definition extends {A} (m : Eff Trace A) : Prop :=
  forall tr, exists ops, fst (m tr) = tr ++ ops.

(** [tf.reshape], recorded like every other operation. *)
Definition tf_reshape (t : Tensor) (req : list Z) : Eff Trace Tensor :=
  o <- op "tf.reshape" (reshape t req) ;;
  require "tf.reshape" o.

(** [[-1] + self._sample_spec.shape.as_list()]. *)
Definition batch_of (spec : BoundedTensorSpec) : list Z :=
  (-1)%Z :: map Z.of_nat (spec_shape spec).

Definition dtype_message : string :=
  "Inputs to NormalProjectionNetwork must match the sample_spec.dtype.".

Definition call (self : Object) (inputs : Tensor) (outer_rank : nat)
  : Eff Trace Distribution :=
  sample_spec <- attr_sample_spec self "_sample_spec" ;;
  spec <- spec_attr sample_spec "dtype" ;;
  if negb (dtype_eqb (dtype inputs) (spec_dtype spec))
  then raise (ValueError dtype_message)
  else
    let batch_squash := new_BatchSquash outer_rank in
    squashed <- run "BatchSquash.flatten" (bs_flatten batch_squash inputs) ;;
    let batch_squash := fst squashed in
    let inputs := snd squashed in

    layer <- attr_layer self "_means_projection_layer" ;;
    means <- run "means_projection_layer" (layer inputs) ;;
    means <- tf_reshape means (batch_of spec) ;;

    scale_distribution <- attr_bool self "_scale_distribution" ;;
    mean_transform <- attr_mean_transform self "_mean_transform" ;;
    means <- match negb scale_distribution, mean_transform with
             | true, Some f => run "mean_transform" (f means spec)
             | _, _ => ret means
             end ;;
    means <- op "tf.cast" (cast means (spec_dtype spec)) ;;

    state_dependent_std <- attr_bool self "_state_dependent_std" ;;
    stds <- (if (state_dependent_std : bool) then
               layer <- attr_layer self "_stddev_projection_layer" ;;
               run "stddev_projection_layer" (layer inputs)
             else
               zeros <- op "tf.zeros_like" (zeros_like means) ;;
               bias <- attr_layer self "_bias" ;;
               stds <- run "bias_layer" (bias zeros) ;;
               tf_reshape stds (batch_of spec)) ;;

    std_transform <- attr_std_transform self "_std_transform" ;;
    stds <- match std_transform with
            | Some f => run "std_transform" (f stds)
            | None => ret stds
            end ;;
    stds <- op "tf.cast" (cast stds (spec_dtype spec)) ;;

    means <- run "BatchSquash.unflatten" (bs_unflatten batch_squash means) ;;
    stds <- run "BatchSquash.unflatten" (bs_unflatten batch_squash stds) ;;

    output_spec <- attr_output_spec self "_output_spec" ;;
    op "build_distribution" (build_distribution output_spec means stds).

(** ** The parts of [call], written as plain functions *)

Definition apply_mean_transform (f : option MeanTransform) (t : Tensor)
  (spec : BoundedTensorSpec) : Outcome Tensor :=
  match f with Some g => g t spec | None => Returned t end.

Definition apply_std_transform (f : option StdTransform) (t : Tensor)
  : Outcome Tensor :=
  match f with Some g => g t | None => Returned t end.

Section Parameters.
Variables (a : InitArgs) (spec : BoundedTensorSpec).

Definition means_layer : Layer :=
  keras_Dense {| units := num_elements (spec_shape spec);
                 activation := activation_fn a;
                 kernel_scale := init_means_output_factor a;
                 bias_value := 0%Q;
                 layer_name := "means_projection_layer" |}.

Definition stddev_layer : Layer :=
  keras_Dense {| units := num_elements (spec_shape spec);
                 activation := activation_fn a;
                 kernel_scale := init_means_output_factor a;
                 bias_value := std_bias_initializer_value a;
                 layer_name := "stddev_projection_layer" |}.

(** The means after the optional transform: with [scale_distribution] the
    transform is skipped. *)
Definition transformed_means (reshaped : Tensor) : Outcome Tensor :=
  if scale_distribution a then Returned reshaped
  else apply_mean_transform (mean_transform a) reshaped spec.

(** The standard deviations before [std_transform], given the squashed
    input and the means after [tf.cast]: the stddev projection of the input,
    or the bias layer on zeros shaped like the means, reshaped. *)
Definition std_preactivation (flat means : Tensor) (pre : Tensor) : Prop :=
  if state_dependent_std a
  then stddev_layer flat = Returned pre
  else exists biased,
         BiasLayer (std_bias_initializer_value a) (zeros_like means)
         = Returned biased /\
         reshape biased (batch_of spec) = Some pre.

(** The builder stored in the output spec. *)
Definition distribution_builder (loc scale : Tensor) : Distribution :=
  if scale_distribution a
  then scale_distribution_to_spec (Normal loc scale) spec
  else Normal loc scale.

Definition built_output_spec : DistributionSpec :=
  mkDistributionSpec distribution_builder
    [("loc"%string, mkTensorSpec (spec_shape spec) (spec_dtype spec));
     ("scale"%string, mkTensorSpec (spec_shape spec) (spec_dtype spec))]
    spec.

(** The attributes of a network whose construction ran to its end. *)
Definition built_object : Object :=
  (if state_dependent_std a
   then ("_stddev_projection_layer"%string, VLayer (Some stddev_layer))
   else ("_bias"%string,
         VLayer (Some (BiasLayer (std_bias_initializer_value a))))) ::
  [ ("_stddev_projection_layer"%string, VLayer None);
    ("_means_projection_layer"%string, VLayer (Some means_layer));
    ("_state_dependent_std"%string, VBool (state_dependent_std a));
    ("_std_transform"%string, VStdTransform (std_transform a));
    ("_mean_transform"%string, VMeanTransform (mean_transform a));
    ("_sample_spec"%string, VSampleSpec (sample_spec a));
    ("_name"%string, VName (name a));
    ("_output_spec"%string, VOutputSpec built_output_spec);
    ("_scale_distribution"%string, VBool (scale_distribution a)) ].

End Parameters.

End Network.

End Specs.

(* ===================================================================== *)
(** * The networks of the categorical DQN agent test *)
(* ===================================================================== *)

(** The arguments of [tf.keras.layers.Dense] as the test passes them: the
    number of units, the constant the kernel is initialised with
    ([verify_shape=True]) and the constant of the bias. *)
Record ConstantDense := mkConstantDense {
  dense_units : nat;
  kernel_initializer : list (list Q);
  bias_initializer : Q
}.

Definition arange (n : nat) : list Q :=
  map (fun k => inject_Z (Z.of_nat k)) (seq 0 n).

Definition ones (n : nat) : list Q := repeat 1%Q n.

Module DummyCategoricalNet.

Section Net.
Context {Ar : Arith}.

(** [tf.keras.layers.Dense] with constant initializers, with its
    variables: a function on tensors that may refuse its argument. *)
Variable Dense : ConstantDense -> Tensor -> Outcome Tensor.

Record Self := mkSelf {
  _num_atoms : nat;
  _num_actions : nat;
  _dummy_layers : list (Tensor -> Outcome Tensor)
}.

Definition weights_initializer (num_atoms : nat) : list (list Q) :=
  [ arange num_atoms ++ ones num_atoms;
    ones num_atoms ++ ones num_atoms ].

(** [DummyCategoricalNet.__init__]; the defaults are [num_atoms=51] and
    [num_actions=2]. *)
Definition __init__ (input_tensor_spec : TensorSpec)
  (num_atoms num_actions : nat) : Self :=
  {| _num_atoms := num_atoms;
     _num_actions := num_actions;
     _dummy_layers :=
       [] ++ [ Dense {| dense_units := num_actions * num_atoms;
                        kernel_initializer := weights_initializer num_atoms;
                        bias_initializer := 1%Q |} ] |}.

Definition num_atoms (self : Self) : nat := _num_atoms self.

(** The loop [for layer in self._dummy_layers: inputs = layer(inputs)]. *)
Fixpoint apply_layers (layers : list (Tensor -> Outcome Tensor))
  (inputs : Tensor) : Outcome Tensor :=
  match layers with
  | [] => Returned inputs
  | layer :: rest =>
      match layer inputs with
      | Returned inputs' => apply_layers rest inputs'
      | Raised e => Raised e
      end
  end.

Definition call {NetworkState : Type} (self : Self) (inputs : Tensor)
  (network_state : NetworkState) : Outcome (Tensor * NetworkState) :=
  let inputs := cast inputs float32 in
  match apply_layers (_dummy_layers self) inputs with
  | Raised e => Raised e
  | Returned inputs =>
      match reshape inputs [(-1)%Z; Z.of_nat (_num_actions self);
                            Z.of_nat (_num_atoms self)] with
      | Some logits => Returned (logits, network_state)
      | None => Raised (FrameworkError "tf.reshape")
      end
  end.

End Net.

End DummyCategoricalNet.

Module DummyCategoricalQRnnNetwork.

Record Self := mkSelf {
  _num_actions : nat;
  _num_atoms : nat
}.

Section Call.
Context {Ar : Arith}.
Variables StepType NetworkState : Type.

(** [QRnnNetwork.call], the method of the parent class. *)
Variable super_call :
  Tensor -> StepType -> NetworkState -> Outcome (Tensor * NetworkState).

Definition call (self : Self) (observations : Tensor) (step_type : StepType)
  (network_state : NetworkState) : Outcome (Tensor * NetworkState) :=
  match super_call observations step_type network_state with
  | Raised e => Raised e
  | Returned (logits, network_state) =>
      let shape := shape logits in
      match shape with
      | [] => Raised IndexError
      | _ =>
          if negb (last shape 0 =? _num_actions self * _num_atoms self)%nat
          then Raised AssertionError
          else
            let new_shape :=
              removelast shape ++ [_num_actions self; _num_atoms self] in
            match reshape logits (map Z.of_nat new_shape) with
            | Some logits => Returned (logits, network_state)
            | None => Raised (FrameworkError "tf.reshape")
            end
      end
  end.

End Call.

End DummyCategoricalQRnnNetwork.

(* ===================================================================== *)
(** * Two arithmetics *)
(* ===================================================================== *)

(** Exact arithmetic on the real numbers: no rounding, no overflow.
    Casting to an integer type drops the fractional part (towards zero);
    every other conversion keeps the value. *)
Definition truncate (x : R) : R :=
  if Rle_dec 0 x then IZR (Int_part x) else (- IZR (Int_part (- x)))%R.

Definition exact_cast (from to : DType) (x : R) : R :=
  if dtype_eqb from to then x
  else if is_integer to && negb (is_integer from) then truncate x
  else x.

Definition exact_arith : Arith :=
  {| scalar := R;
     zero := 0%R;
     two := 2%R;
     add := Rplus;
     sub := Rminus;
     mul := Rmult;
     div := Rdiv;
     leb := fun x y => if Rle_dec x y then true else false;
     tf_tanh := tanh;
     tf_softplus := fun x => ln (1 + exp x);
     cast_scalar := exact_cast |}.

(** IEEE 754 binary32, round to nearest even, as numpy and TensorFlow
    compute on [float32]: 24 bits of precision, infinities at exponent
    128. The implementations of [tf.tanh], [tf.nn.softplus] and [tf.cast]
    are left open. *)
Record FloatLibrary := mkFloatLibrary {
  tanh_impl : spec_float -> spec_float;
  softplus_impl : spec_float -> spec_float;
  cast_impl : DType -> DType -> spec_float -> spec_float
}.

Definition binary32 (lib : FloatLibrary) : Arith :=
  {| scalar := spec_float;
     zero := S754_zero false;
     two := S754_finite false 8388608 (-22);
     add := SFadd 24 128;
     sub := SFsub 24 128;
     mul := SFmul 24 128;
     div := SFdiv 24 128;
     leb := SFleb;
     tf_tanh := tanh_impl lib;
     tf_softplus := softplus_impl lib;
     cast_scalar := cast_impl lib |}.

(** The largest magnitudes used below: [3e38] as a [float32]. *)
Definition f32_3e38 : spec_float := S754_finite false 14791142 104.

(** A scalar [float32] spec with the bounds [-3e38] and [3e38], and a
    tensor holding the single component zero. *)
Definition huge_spec (lib : FloatLibrary)
  : @BoundedTensorSpec (binary32 lib) :=
  @mkBoundedTensorSpec (binary32 lib) [] float32
    (@mkTensor (binary32 lib) float32 [] [SFopp f32_3e38])
    (@mkTensor (binary32 lib) float32 [] [f32_3e38]).

Definition zero_input (lib : FloatLibrary) : @Tensor (binary32 lib) :=
  @mkTensor (binary32 lib) float32 [1] [S754_zero false].

(** A scalar [float32] spec with the bounds [0.1] and [0.3] (as
    [float32]: 13421773 * 2^-27 and 10066330 * 2^-25), and a tensor with one
    component. *)
Definition f32_tenth : spec_float := S754_finite false 13421773 (-27).
Definition f32_three_tenths : spec_float := S754_finite false 10066330 (-25).
Definition f32_minus_one : spec_float := S754_finite true 8388608 (-23).

Definition narrow_spec (lib : FloatLibrary)
  : @BoundedTensorSpec (binary32 lib) :=
  @mkBoundedTensorSpec (binary32 lib) [] float32
    (@mkTensor (binary32 lib) float32 [] [f32_tenth])
    (@mkTensor (binary32 lib) float32 [] [f32_three_tenths]).

Definition one_input (lib : FloatLibrary) (v : spec_float)
  : @Tensor (binary32 lib) :=
  @mkTensor (binary32 lib) float32 [1] [v].

(** A spec over the reals with the bounds [-1] and [1], and one whose
    lower bound is a column: [0] for the first row, [10] for the second. *)
Definition example_spec : @BoundedTensorSpec exact_arith :=
  @mkBoundedTensorSpec exact_arith [2] float32
    (@mkTensor exact_arith float32 [] [(-1)%R])
    (@mkTensor exact_arith float32 [] [1%R]).

Definition column_bound : @Tensor exact_arith :=
  @mkTensor exact_arith float32 [2; 1] [0%R; 10%R].

Definition example_inputs : @Tensor exact_arith :=
  @mkTensor exact_arith float32 [3; 2] [1; 2; 3; 4; 5; 6]%R.

(* ===================================================================== *)
(** * An instance of the layers *)
(* ===================================================================== *)

(** [min_ndim=2]: a Dense layer refuses tensors of rank below two. The
    messages are abridged. *)
Definition dense_rank_message : string :=
  "Input 0 of layer is incompatible with the layer: expected min_ndim=2".

Definition dense_dim_message : string :=
  "Input 0 of layer is incompatible with the layer: expected axis -1".

(** A Dense layer, in exact arithmetic, whose kernel is the identity and
    whose bias holds its initial value: built for inputs with as many
    features as it has units, it adds the bias to every component. *)
Definition identity_dense (cfg : @DenseConfig exact_arith)
  : @Layer exact_arith :=
  fun x =>
    if (length (shape x) <? 2)%nat then Raised (ValueError dense_rank_message)
    else if (last (shape x) 0 =? units cfg)%nat
         then Returned (@map_data exact_arith (Rplus (Q2R (bias_value cfg))) x)
         else Raised (ValueError dense_dim_message).

(** A bias layer adds its bias to every component. *)
Definition add_bias (v : Q) : @Layer exact_arith :=
  fun x => Returned (@map_data exact_arith (Rplus (Q2R v)) x).

(** Squashing with a single batch dimension leaves tensors as they are. *)
Definition small_framework : @Framework exact_arith :=
  {| keras_Dense := identity_dense;
     BiasLayer := add_bias;
     BatchSquash := unit;
     new_BatchSquash := fun _ => tt;
     bs_flatten := fun b t => Returned (b, t);
     bs_unflatten := fun _ t => Returned t |}.

(** Inputs of the shape and dtype of [example_inputs] with other values, a
    single feature vector without batch dimension, and a batch of integer
    type. *)
Definition other_inputs : @Tensor exact_arith :=
  @mkTensor exact_arith float32 [3; 2] [0; 0; 7; 7; 0; 0]%R.

Definition unbatched_inputs : @Tensor exact_arith :=
  @mkTensor exact_arith float32 [2] [1; 2]%R.

Definition integer_inputs : @Tensor exact_arith :=
  @mkTensor exact_arith int32 [3; 2] [1; 2; 3; 4; 5; 6]%R.

(** A mean transform whose result has a shape that depends on the values
    it is given: it keeps the first sample when the first mean is
    positive. *)
Definition first_if_positive : @MeanTransform exact_arith :=
  fun t spec =>
    if Rle_dec (nth 0 (data t) 0%R) 0
    then Returned t
    else Returned (@mkTensor exact_arith (dtype t) [1; 2] (firstn 2 (data t))).

Definition example_args : @InitArgs exact_arith :=
  @default_args exact_arith (Leaf example_spec).

(** The default arguments, with standard deviations computed from the
    input. *)
Definition dependent_args : @InitArgs exact_arith :=
  @mkInitArgs exact_arith (Leaf example_spec) None 0.1%Q 0%Q
    (Some (@tanh_squash_to_spec exact_arith)) (Some (@softplus exact_arith))
    true false "NormalProjectionNetwork".

(** The default arguments, with the distribution scaled to the spec. *)
Definition scaled_args : @InitArgs exact_arith :=
  @mkInitArgs exact_arith (Leaf example_spec) None 0.1%Q 0%Q
    (Some (@tanh_squash_to_spec exact_arith)) (Some (@softplus exact_arith))
    false true "NormalProjectionNetwork".

(** The default arguments, with the value-dependent mean transform and
    without a transform of the standard deviations. *)
Definition flaky_args : @InitArgs exact_arith :=
  @mkInitArgs exact_arith (Leaf example_spec) None 0.1%Q 0%Q
    (Some first_if_positive) None
    false false "NormalProjectionNetwork".

(** A parent [call] for [DummyCategoricalQRnnNetwork]: six logits for each
    of two observations, and a state that counts the calls. *)
Definition counting_parent (observations : @Tensor exact_arith)
  (step_type : unit) (network_state : nat)
  : Outcome (@Tensor exact_arith * nat) :=
  Returned (@mkTensor exact_arith float32 [2; 6] (repeat 1%R 12),
            S network_state).

(** A parent [call] that returns logits with a time dimension, six for
    each of three steps of two observations, and the state it was given. *)
Definition sequence_parent (observations : @Tensor exact_arith)
  (step_type : unit) (network_state : nat)
  : Outcome (@Tensor exact_arith * nat) :=
  Returned (@mkTensor exact_arith float32 [2; 3; 6] (repeat 1%R 36),
            network_state).

Definition two_by_three : DummyCategoricalQRnnNetwork.Self :=
  {| DummyCategoricalQRnnNetwork._num_actions := 2;
     DummyCategoricalQRnnNetwork._num_atoms := 3 |}.

(** A network whose nine logits per observation do not match the six the
    parent [counting_parent] returns. *)
Definition three_by_three : DummyCategoricalQRnnNetwork.Self :=
  {| DummyCategoricalQRnnNetwork._num_actions := 3;
     DummyCategoricalQRnnNetwork._num_atoms := 3 |}.

(** A Dense layer with constant initializers, in exact arithmetic: it
    refuses tensors of rank below two and kernels that do not have one row
    per input feature and one column per unit, and computes [x . W + b]
    for every row [x]. *)
Definition dot_column (row : list R) (kernel : list (list Q)) (j : nat) : R :=
  fold_right Rplus 0%R
    (map (fun xw => (fst xw * Q2R (nth j (snd xw) 0%Q))%R)
         (combine row kernel)).

Definition dense_row (cfg : ConstantDense) (row : list R) : list R :=
  map (fun j => (dot_column row (kernel_initializer cfg) j
                 + Q2R (bias_initializer cfg))%R)
      (seq 0 (dense_units cfg)).

Definition kernel_fits (cfg : ConstantDense) (input_dim : nat) : bool :=
  (length (kernel_initializer cfg) =? input_dim)%nat &&
  forallb (fun w => (length w =? dense_units cfg)%nat)
          (kernel_initializer cfg).

Definition exact_dense (cfg : ConstantDense) (x : @Tensor exact_arith)
  : Outcome (@Tensor exact_arith) :=
  if (length (shape x) <? 2)%nat then Raised (ValueError dense_rank_message)
  else
    let input_dim := last (shape x) 0%nat in
    if kernel_fits cfg input_dim then
      Returned
        (@mkTensor exact_arith (dtype x)
           (removelast (shape x) ++ [dense_units cfg])
           (flat_map
              (fun r => dense_row cfg
                          (firstn input_dim (skipn (r * input_dim) (data x))))
              (seq 0 (num_elements (removelast (shape x))))))
    else Raised (ValueError "verify_shape").

(* ===================================================================== *)
(** * Properties *)
(* ===================================================================== *)

(** ** The hyperbolic tangent stays strictly between -1 and 1 *)

Lemma tanh_range (x : R) : (-1 < tanh x < 1)%R.
Proof.
  unfold tanh, sinh, cosh.
  pose proof (exp_pos x) as Ha.
  pose proof (exp_pos (- x)) as Hb.
  set (p := exp x) in *. set (q := exp (- x)) in *.
  assert (E : ((p - q) / 2 / ((p + q) / 2) = (p - q) / (p + q))%R)
    by (field; lra).
  rewrite E.
  assert (Hpq : (0 < p + q)%R) by lra.
  split.
  - apply Rmult_lt_reg_r with (p + q)%R; [assumption |].
    unfold Rdiv. rewrite Rmult_assoc, Rinv_l by lra. lra.
  - apply Rmult_lt_reg_r with (p + q)%R; [assumption |].
    unfold Rdiv. rewrite Rmult_assoc, Rinv_l by lra. lra.
Qed.

(** A point between two bounds, written as centre plus a fraction of the
    half-width. *)
Lemma squash_between (lo hi t : R) :
  (lo <= hi)%R -> (-1 < t < 1)%R ->
  (lo <= (hi + lo) / 2 + (hi - lo) / 2 * t <= hi)%R.
Proof. intros Hb [Hl Hu]. split; nra. Qed.

Lemma nth_map_seq {B} (g : nat -> B) (n j : nat) (d : B) :
  (j < n)%nat -> nth j (map g (seq 0 n)) d = g j.
Proof.
  intros H.
  rewrite (nth_indep _ d (g 0%nat)) by now rewrite length_map, length_seq.
  rewrite map_nth, seq_nth by assumption. reflexivity.
Qed.

Lemma squash_returns {Ar : Arith} (x : Tensor) (spec : BoundedTensorSpec)
  (rs : list nat) :
  squash_shape x spec = Some rs ->
  is_integer (dtype x) = false ->
  tanh_squash_to_spec x spec
  = Returned
      (mkTensor (dtype x) rs
         (map (fun n =>
                 add (means_at spec rs n)
                     (mul (magnitudes_at spec rs n)
                          (tf_tanh (broadcast_get x rs n))))
              (seq 0 (num_elements rs)))).
Proof. intros Hs Hd. unfold tanh_squash_to_spec. now rewrite Hs, Hd. Qed.

Lemma squash_returned {Ar : Arith} (x : Tensor) (spec : BoundedTensorSpec)
  (y : Tensor) :
  tanh_squash_to_spec x spec = Returned y ->
  squash_shape x spec = Some (shape y) /\ is_integer (dtype x) = false.
Proof.
  unfold tanh_squash_to_spec.
  destruct (squash_shape x spec) as [rs |]; [| discriminate].
  destruct (is_integer (dtype x)); [discriminate |].
  intros H. injection H as <-. split; reflexivity.
Qed.


(** A bound of shape [[2; 1]] meets the rows of a result of shape
    [[2; 3]]: its first entry along the first row, its second along the
    second. *)
Example broadcast_column :
  map (@broadcast_get exact_arith column_bound [2; 3]) (seq 0 6)
  = [0; 0; 0; 10; 10; 10]%R.
Proof. reflexivity. Qed.



(** ** Comparing dtypes *)

Lemma dtype_eqb_spec a b : reflect (a = b) (dtype_eqb a b).
Proof. destruct a, b; constructor; congruence. Qed.

Lemma dtype_eqb_refl a : dtype_eqb a a = true.
Proof. now destruct a. Qed.

(** ** The constructor *)

Section Constructor.
Context {Ar : Arith} {F : Framework}.

Lemma construct_leaf (a : InitArgs) (spec : BoundedTensorSpec) :
  sample_spec a = Leaf spec ->
  construct a = (built_object a spec, Returned tt).
Proof.
  intros E. unfold construct, __init__, built_object. rewrite E.
  destruct (state_dependent_std a) eqn:Ed; reflexivity.
Qed.

Lemma construct_many (a : InitArgs) :
  length (flatten (sample_spec a)) <> 1%nat ->
  construct a = ([], Raised (ValueError single_spec_message)).
Proof.
  intros H. unfold construct, __init__, bind.
  destruct (Nat.eqb_spec (length (flatten (sample_spec a))) 1) as [E | _];
    [contradiction | reflexivity].
Qed.

Lemma construct_seq (a : InitArgs) items :
  sample_spec a = Seq items ->
  length (flatten (sample_spec a)) = 1%nat ->
  construct a =
  ([("_scale_distribution"%string, VBool (scale_distribution a))],
   Raised (AttributeError "shape")).
Proof.
  intros E H. unfold construct, __init__, bind. rewrite H. simpl.
  rewrite E. reflexivity.
Qed.

Lemma construct_returned (a : InitArgs) (self : Object) :
  construct a = (self, Returned tt) ->
  exists spec, sample_spec a = Leaf spec /\ self = built_object a spec.
Proof.
  intros H. destruct (sample_spec a) as [spec | items] eqn:E.
  - exists spec. split; [reflexivity |].
    rewrite (construct_leaf a E) in H. now injection H.
  - destruct (Nat.eq_dec (length (flatten (sample_spec a))) 1) as [H1 | H1].
    + rewrite (construct_seq a E H1) in H. discriminate.
    + rewrite (construct_many a H1) in H. discriminate.
Qed.

End Constructor.

(** ** Shapes and [tf.reshape] *)

Section Reshape.
Context {Ar : Arith}.

Lemma num_elements_app s1 s2 :
  num_elements (s1 ++ s2) = (num_elements s1 * num_elements s2)%nat.
Proof.
  induction s1 as [| d s1 IH]; simpl.
  - lia.
  - unfold num_elements in *. simpl. rewrite IH. lia.
Qed.

Lemma num_elements_last s u :
  num_elements (s ++ [u]) = (num_elements s * u)%nat.
Proof. rewrite num_elements_app. unfold num_elements. simpl. lia. Qed.

Lemma of_nat_not_wild n : is_wild (Z.of_nat n) = false.
Proof. unfold is_wild. apply Z.eqb_neq. lia. Qed.

Lemma of_nat_no_negative s :
  existsb (fun d => (d <? -1)%Z) (map Z.of_nat s) = false.
Proof.
  induction s as [| n s IH]; simpl; [reflexivity |].
  rewrite IH, orb_false_r. apply Z.ltb_ge. lia.
Qed.

Lemma of_nat_no_wild s : filter is_wild (map Z.of_nat s) = [].
Proof.
  induction s as [| n s IH]; simpl; [reflexivity |].
  now rewrite of_nat_not_wild.
Qed.

Lemma of_nat_all_known s :
  map Z.to_nat (filter (fun d => negb (is_wild d)) (map Z.of_nat s)) = s.
Proof.
  induction s as [| n s IH]; simpl; [reflexivity |].
  rewrite of_nat_not_wild. simpl. now rewrite IH, Nat2Z.id.
Qed.

Lemma resolve_of_nat fill s : resolve fill (map Z.of_nat s) = s.
Proof.
  unfold resolve. induction s as [| n s IH]; simpl; [reflexivity |].
  now rewrite of_nat_not_wild, IH, Nat2Z.id.
Qed.

(** A request without [-1] is granted exactly when it keeps the number of
    components. *)
Lemma reshape_exact (t : Tensor) s :
  num_elements s = size t ->
  reshape t (map Z.of_nat s) = Some (mkTensor (dtype t) s (data t)).
Proof.
  intros H. unfold reshape, count_wild, known_product.
  rewrite of_nat_no_negative, of_nat_no_wild, of_nat_all_known. simpl.
  rewrite H, Nat.eqb_refl, resolve_of_nat. reflexivity.
Qed.

Lemma leading_no_negative s :
  existsb (fun d => (d <? -1)%Z) ((-1)%Z :: map Z.of_nat s) = false.
Proof. simpl. apply of_nat_no_negative. Qed.

Lemma leading_count_wild s : count_wild ((-1)%Z :: map Z.of_nat s) = 1%nat.
Proof. unfold count_wild. simpl. now rewrite of_nat_no_wild. Qed.

Lemma leading_known_product s :
  known_product ((-1)%Z :: map Z.of_nat s) = num_elements s.
Proof. unfold known_product. simpl. now rewrite of_nat_all_known. Qed.

Lemma leading_resolve fill s :
  resolve fill ((-1)%Z :: map Z.of_nat s) = fill :: s.
Proof.
  unfold resolve. simpl. f_equal. apply (resolve_of_nat fill s).
Qed.

(** A request [-1 :: s] is granted exactly when the components split into
    blocks of [num_elements s]. *)
Lemma reshape_leading (t : Tensor) s :
  num_elements s <> 0%nat ->
  (size t mod num_elements s = 0)%nat ->
  reshape t ((-1)%Z :: map Z.of_nat s)
  = Some (mkTensor (dtype t) (size t / num_elements s :: s) (data t)).
Proof.
  intros Hk Hm. unfold reshape.
  rewrite leading_no_negative, leading_count_wild, leading_known_product.
  cbv zeta.
  destruct (Nat.eqb_spec (num_elements s) 0) as [E | _]; [contradiction |].
  rewrite Hm, leading_resolve. reflexivity.
Qed.

Lemma reshape_leading_inv (t : Tensor) s t' :
  reshape t ((-1)%Z :: map Z.of_nat s) = Some t' ->
  shape t' = (size t / num_elements s :: s) /\
  data t' = data t /\ dtype t' = dtype t.
Proof.
  unfold reshape.
  rewrite leading_no_negative, leading_count_wild, leading_known_product.
  cbv zeta.
  destruct (Nat.eqb (num_elements s) 0); [discriminate |].
  destruct (Nat.eqb (size t mod num_elements s) 0); [| discriminate].
  intros E. rewrite leading_resolve in E. injection E as <-.
  cbn [shape data dtype]. auto.
Qed.

End Reshape.

(** ** Running [call] *)

Section Steps.
Context {Ar : Arith} {F : Framework}.

Lemma bind_op {A B} (n : string) (v : A) (k : A -> Eff Trace B) tr :
  bind (op n v) k tr = k v (tr ++ [n]).
Proof. reflexivity. Qed.

Lemma bind_ret {S A B} (v : A) (k : A -> Eff S B) s :
  bind (ret v) k s = k v s.
Proof. reflexivity. Qed.

Lemma bind_run_returned {A B} (n : string) (v : A) (k : A -> Eff Trace B) tr :
  bind (run n (Returned v)) k tr = k v (tr ++ [n]).
Proof. reflexivity. Qed.

Lemma bind_run_raised {A B} (n : string) e (k : A -> Eff Trace B) tr :
  bind (run n (Raised e)) k tr = (tr ++ [n], Raised e).
Proof. reflexivity. Qed.

Lemma bind_tf_reshape_some {B} t req t' (k : Tensor -> Eff Trace B) tr :
  reshape t req = Some t' ->
  bind (tf_reshape t req) k tr = k t' (tr ++ ["tf.reshape"%string]).
Proof. intros E. unfold tf_reshape, bind, op, require. now rewrite E. Qed.

Lemma bind_tf_reshape_none {B} t req (k : Tensor -> Eff Trace B) tr :
  reshape t req = None ->
  bind (tf_reshape t req) k tr
  = (tr ++ ["tf.reshape"%string], Raised (FrameworkError "tf.reshape")).
Proof. intros E. unfold tf_reshape, bind, op, require. now rewrite E. Qed.

Lemma bind_assoc {S A B C} (m : Eff S A) (f : A -> Eff S B)
  (g : B -> Eff S C) s :
  bind (bind m f) g s = bind m (fun x => bind (f x) g) s.
Proof. unfold bind. destruct (m s) as [s' [x | e]]; reflexivity. Qed.

End Steps.

(** Run a chain of binds whose steps are all known. *)
Ltac run_steps :=
  repeat (first [ rewrite bind_assoc | rewrite bind_op | rewrite bind_ret
                | rewrite bind_run_returned ];
          cbv beta iota).

(** Take one step of a chain of binds that is known to return. *)
Ltac step_in H :=
  lazymatch type of H with
  | snd (bind (bind _ _) _ _) = Returned _ => rewrite bind_assoc in H
  | snd (bind (ret _) _ _) = Returned _ => rewrite bind_ret in H
  | snd (bind (op _ _) _ _) = Returned _ => rewrite bind_op in H
  | snd (bind (run _ ?o) _ _) = Returned _ =>
      let E := fresh "E" in
      destruct o eqn:E;
      [ rewrite bind_run_returned in H
      | rewrite bind_run_raised in H; discriminate H ]
  | snd (bind (tf_reshape ?t ?r) _ _) = Returned _ =>
      let E := fresh "E" in
      destruct (reshape t r) eqn:E;
      [ erewrite bind_tf_reshape_some in H by exact E
      | erewrite bind_tf_reshape_none in H by exact E; discriminate H ]
  end; cbv beta iota in H; cbn [negb] in H.

Section Call.
Context {Ar : Arith} {F : Framework}.
Variables (a : InitArgs) (spec : BoundedTensorSpec).
Hypothesis Hleaf : sample_spec a = Leaf spec.

Lemma call_mismatch inputs outer_rank tr :
  dtype inputs <> spec_dtype spec ->
  call (built_object a spec) inputs outer_rank tr
  = (tr, Raised (ValueError dtype_message)).
Proof.
  intros H. unfold call, built_object. rewrite Hleaf.
  destruct (state_dependent_std a); cbn;
  (destruct (dtype_eqb_spec (dtype inputs) (spec_dtype spec));
   [contradiction | reflexivity]).
Qed.

Lemma extends_ret {A} (v : A) : extends (ret v).
Proof. intros tr. exists []. cbn. now rewrite app_nil_r. Qed.

Lemma extends_raise {A} e : extends (@raise Trace A e).
Proof. intros tr. exists []. cbn. now rewrite app_nil_r. Qed.

Lemma extends_op {A} n (v : A) : extends (op n v).
Proof. intros tr. exists [n]. reflexivity. Qed.

Lemma extends_run {A} n (o : Outcome A) : extends (run n o).
Proof. intros tr. exists [n]. reflexivity. Qed.

Lemma extends_bind {A B} (m : Eff Trace A) (k : A -> Eff Trace B) :
  extends m -> (forall x, extends (k x)) -> extends (bind m k).
Proof.
  intros Hm Hk tr. unfold bind. destruct (Hm tr) as [ops Ho].
  destruct (m tr) as [tr' [x | e]]; cbn in Ho; subst tr'.
  - destruct (Hk x (tr ++ ops)) as [ops' Ho']. exists (ops ++ ops').
    now rewrite Ho', app_assoc.
  - exists ops. reflexivity.
Qed.

Lemma extends_tf_reshape t req : extends (tf_reshape t req).
Proof.
  unfold tf_reshape. apply extends_bind; [apply extends_op |].
  intros [x |]; [apply extends_ret | apply extends_raise].
Qed.

(** With a matching dtype the first operation is applied, whatever
    follows. *)
Lemma call_starts inputs outer_rank tr :
  dtype inputs = spec_dtype spec ->
  exists ops,
    fst (call (built_object a spec) inputs outer_rank tr)
    = tr ++ "BatchSquash.flatten"%string :: ops.
Proof.
  intros Hd. unfold call, built_object. rewrite Hleaf.
  destruct (state_dependent_std a) eqn:Esd; cbn;
    rewrite Hd, dtype_eqb_refl; cbn [negb];
    (destruct (bs_flatten (new_BatchSquash outer_rank) inputs)
       as [squashed | e];
     [ rewrite bind_run_returned | exists []; reflexivity ]);
    match goal with
    | |- exists ops, fst (?m ?t) = _ =>
        assert (Hx : extends m);
        [ | destruct (Hx t) as [ops Ho]; exists ops;
            rewrite Ho, <- app_assoc; reflexivity ]
    end;
    repeat first
      [ apply extends_tf_reshape | apply extends_ret | apply extends_raise
      | apply extends_op | apply extends_run | apply extends_bind
      | match goal with
        | |- forall _, _ => intro
        | |- extends (if negb ?b then _ else _) => destruct b; cbn [negb]
        | |- extends (if ?b then _ else _) => destruct b
        | |- extends (match ?o with Some _ => _ | None => _ end) => destruct o
        end ].
Qed.

(** When every operation returns, [call] returns the distribution built
    from what [BatchSquash.unflatten] returned. *)
Lemma call_forward inputs outer_rank tr bs flat projected reshaped means pre
  stds loc scale :
  dtype inputs = spec_dtype spec ->
  bs_flatten (new_BatchSquash outer_rank) inputs = Returned (bs, flat) ->
  means_layer a spec flat = Returned projected ->
  reshape projected (batch_of spec) = Some reshaped ->
  transformed_means a spec reshaped = Returned means ->
  std_preactivation a spec flat (cast means (spec_dtype spec)) pre ->
  apply_std_transform (std_transform a) pre = Returned stds ->
  bs_unflatten bs (cast means (spec_dtype spec)) = Returned loc ->
  bs_unflatten bs (cast stds (spec_dtype spec)) = Returned scale ->
  snd (call (built_object a spec) inputs outer_rank tr)
  = Returned (distribution_builder a spec loc scale).
Proof.
  intros Hd Hf Hp Hr Hm Hpre Hs Hl Hsc.
  unfold call, built_object. rewrite Hleaf.
  unfold transformed_means, apply_mean_transform in Hm.
  unfold std_preactivation in Hpre.
  unfold apply_std_transform in Hs.
  destruct (state_dependent_std a) eqn:Esd; cbn;
    rewrite Hd, dtype_eqb_refl; cbn [negb];
    rewrite Hf, bind_run_returned; cbn [fst snd];
    rewrite bind_ret, Hp, bind_run_returned;
    (erewrite bind_tf_reshape_some by exact Hr); rewrite !bind_ret.
  - destruct (scale_distribution a), (mean_transform a), (std_transform a);
      cbn [negb]; try rewrite Hm; try (injection Hm as Hm; subst means);
      run_steps; rewrite ?Hpre; run_steps;
      try rewrite Hs; try (injection Hs as Hs; subst stds);
      run_steps; rewrite Hl; run_steps; rewrite Hsc; run_steps;
      reflexivity.
  - destruct Hpre as (biased & Hb & Hrb).
    destruct (scale_distribution a), (mean_transform a), (std_transform a);
      cbn [negb]; try rewrite Hm; try (injection Hm as Hm; subst means);
      run_steps; rewrite Hb; run_steps;
      (erewrite bind_tf_reshape_some by exact Hrb); run_steps;
      try rewrite Hs; try (injection Hs as Hs; subst stds);
      run_steps; rewrite Hl; run_steps; rewrite Hsc; run_steps;
      reflexivity.
Qed.

(** Whenever [call] returns, every operation returned, and the
    distribution is built from what [BatchSquash.unflatten] returned. *)
Lemma call_inversion inputs outer_rank tr d :
  snd (call (built_object a spec) inputs outer_rank tr) = Returned d ->
  dtype inputs = spec_dtype spec /\
  exists bs flat projected reshaped means pre stds loc scale,
    bs_flatten (new_BatchSquash outer_rank) inputs = Returned (bs, flat) /\
    means_layer a spec flat = Returned projected /\
    reshape projected (batch_of spec) = Some reshaped /\
    transformed_means a spec reshaped = Returned means /\
    std_preactivation a spec flat (cast means (spec_dtype spec)) pre /\
    apply_std_transform (std_transform a) pre = Returned stds /\
    bs_unflatten bs (cast means (spec_dtype spec)) = Returned loc /\
    bs_unflatten bs (cast stds (spec_dtype spec)) = Returned scale /\
    d = distribution_builder a spec loc scale.
Proof.
  intros H.
  destruct (dtype_eqb_spec (dtype inputs) (spec_dtype spec)) as [Hd | Hd];
    [| rewrite (call_mismatch _ _ _ Hd) in H; discriminate H].
  split; [exact Hd |].
  unfold call, built_object in H. rewrite Hleaf in H.
  unfold transformed_means, apply_mean_transform, std_preactivation,
    apply_std_transform.
  destruct (state_dependent_std a) eqn:Esd; cbn in H;
    rewrite Hd, dtype_eqb_refl in H;
    destruct (scale_distribution a) eqn:Esc;
    destruct (mean_transform a) as [g |] eqn:Emt;
    destruct (std_transform a) as [h |] eqn:Est;
    cbn [negb] in H; repeat step_in H;
    unfold op in H; cbn [snd] in H; injection H as <-;
    match goal with p : (BatchSquash * Tensor)%type |- _ => destruct p as [bs flat] end;
    cbn [fst snd] in *;
    exists bs, flat;
    repeat first [ eassumption | reflexivity | apply conj | eexists ].
Qed.

End Call.

(** ** The instance of the layers *)

Lemma small_framework_laws : FrameworkLaws small_framework.
Proof.
  split.
  - intros cfg x y px py Hs Hx Hy. cbn in Hx, Hy.
    unfold identity_dense in Hx, Hy. rewrite <- Hs in Hy.
    destruct (length (shape x) <? 2)%nat; [discriminate |].
    destruct (last (shape x) 0 =? units cfg)%nat; [| discriminate].
    injection Hx as <-. injection Hy as <-. cbn. exact Hs.
  - intros b x y bx fx by_ fy Hs Hx Hy. cbn in Hx, Hy.
    injection Hx as <- <-. injection Hy as <- <-. now split.
Qed.

Lemma tanh_squash_shape_determined {Ar : Arith} (spec : BoundedTensorSpec) :
  shape_determined (Some tanh_squash_to_spec) spec.
Proof.
  intros t t' m m' Hs Hm Hm'. unfold tanh_squash_to_spec, squash_shape in *.
  rewrite <- Hs in Hm'.
  destruct (broadcast_shapes (shape (maximum spec)) (shape (minimum spec)))
    as [bounds |]; [| discriminate].
  destruct (broadcast_shapes bounds (shape t)) as [rs |]; [| discriminate].
  destruct (is_integer (dtype t)); [discriminate |].
  destruct (is_integer (dtype t')); [discriminate |].
  injection Hm as <-. injection Hm' as <-. reflexivity.
Qed.

(** ** [NormalProjectionNetwork.__init__] *)








(** ** [NormalProjectionNetwork.call] *)

Section Forward.
Context {Ar : Arith} {F : Framework}.


(** C9, amended. [call] on a constructed network ends in the [ValueError]
    of the dtype check, with no operation applied, if and only if the dtype
    of the input differs from that of the sample spec. With a matching
    dtype the input is handed to [BatchSquash.flatten], whatever follows;
    an exception raised from then on, [ValueError] included, is that of one
    of the operations. *)
Theorem call_dtype_check (a : InitArgs) (self : Object)
  (spec : BoundedTensorSpec) (inputs : Tensor) (outer_rank : nat) :
  construct a = (self, Returned tt) ->
  sample_spec a = Leaf spec ->
  (dtype inputs <> spec_dtype spec ->
   call self inputs outer_rank [] = ([], Raised (ValueError dtype_message)))
  /\
  (dtype inputs = spec_dtype spec ->
   exists ops,
     fst (call self inputs outer_rank [])
     = "BatchSquash.flatten"%string :: ops)
  /\
  (call self inputs outer_rank [] = ([], Raised (ValueError dtype_message))
   <-> dtype inputs <> spec_dtype spec).
Proof.
  intros Hc Hleaf.
  destruct (construct_returned a Hc) as (spec' & E & ->).
  rewrite Hleaf in E. injection E as <-.
  assert (H1 : dtype inputs <> spec_dtype spec ->
               call (built_object a spec) inputs outer_rank []
               = ([], Raised (ValueError dtype_message)))
    by (intros H; now apply call_mismatch).
  assert (H2 : dtype inputs = spec_dtype spec ->
               exists ops,
                 fst (call (built_object a spec) inputs outer_rank [])
                 = "BatchSquash.flatten"%string :: ops)
    by (intros H; now apply (call_starts a Hleaf inputs outer_rank [] H)).
  repeat split; try assumption.
  intros Hcall Heq. destruct (H2 Heq) as [ops Hops].
  rewrite Hcall in Hops. discriminate Hops.
Qed.

(** X4. With [scale_distribution] on, the mean transform is skipped: when
    every operation accepts its argument, [call] returns the Normal
    distribution on the untransformed (reshaped and cast) projection,
    wrapped by [scale_distribution_to_spec] for the sample spec. *)
Theorem call_scaled_skips_mean_transform (a : InitArgs) (self : Object)
  (spec : BoundedTensorSpec) (inputs : Tensor) (outer_rank : nat)
  bs flat projected reshaped pre stds loc scale :
  construct a = (self, Returned tt) ->
  sample_spec a = Leaf spec ->
  scale_distribution a = true ->
  dtype inputs = spec_dtype spec ->
  bs_flatten (new_BatchSquash outer_rank) inputs = Returned (bs, flat) ->
  means_layer a spec flat = Returned projected ->
  reshape projected (batch_of spec) = Some reshaped ->
  std_preactivation a spec flat (cast reshaped (spec_dtype spec)) pre ->
  apply_std_transform (std_transform a) pre = Returned stds ->
  bs_unflatten bs (cast reshaped (spec_dtype spec)) = Returned loc ->
  bs_unflatten bs (cast stds (spec_dtype spec)) = Returned scale ->
  snd (call self inputs outer_rank [])
  = Returned (scale_distribution_to_spec (Normal loc scale) spec).
Proof.
  intros Hc Hleaf Hsc Hd Hf Hm Hr Hp Hs Hl Hsd.
  destruct (construct_returned a Hc) as (spec' & E & ->).
  rewrite Hleaf in E. injection E as <-.
  erewrite (call_forward a Hleaf); try eassumption.
  - unfold distribution_builder. now rewrite Hsc.
  - unfold transformed_means. now rewrite Hsc.
Qed.


End Forward.

(** *** At concrete inputs *)



Lemma call_dtype_check_witness :
  @call exact_arith small_framework
    (@built_object exact_arith small_framework example_args example_spec)
    integer_inputs 1 []
  = ([], Raised (ValueError dtype_message)).
Proof.
  apply (proj1 (@call_dtype_check exact_arith small_framework example_args
                  (@built_object exact_arith small_framework example_args
                     example_spec)
                  example_spec integer_inputs 1 eq_refl eq_refl)).
  discriminate.
Defined.

(** C9 as stated fails: the dtype of the input is that of the sample spec,
    and [call] raises [ValueError] all the same, from the means projection
    layer, after [BatchSquash.flatten]. *)
Lemma value_error_with_matching_dtype :
  dtype unbatched_inputs = spec_dtype example_spec /\
  exists msg,
    @call exact_arith small_framework
      (@built_object exact_arith small_framework dependent_args example_spec)
      unbatched_inputs 1 []
    = (["BatchSquash.flatten"; "means_projection_layer"]%string,
       Raised (ValueError msg)).
Proof. split; [reflexivity |]. exists dense_rank_message. reflexivity. Qed.

Lemma call_scaled_skips_mean_transform_witness :
  exists loc scale,
    snd (@call exact_arith small_framework
           (@built_object exact_arith small_framework scaled_args
              example_spec)
           example_inputs 1 [])
    = Returned (scale_distribution_to_spec (Normal loc scale) example_spec) /\
    data loc
    = map (exact_cast float32 float32)
          (map (Rplus (Q2R 0)) (data example_inputs)).
Proof.
  eexists. eexists.
  refine (let H :=
            @call_scaled_skips_mean_transform exact_arith small_framework
              scaled_args
              (@built_object exact_arith small_framework scaled_args
                 example_spec)
              example_spec example_inputs 1 _ _ _ _ _ _ _ _
              eq_refl eq_refl eq_refl eq_refl eq_refl eq_refl eq_refl
              (ex_intro _ _ (conj eq_refl eq_refl)) eq_refl eq_refl eq_refl
          in _).
  split; [exact H | reflexivity].
Defined.


(** The value-dependent mean transform at the two inputs. *)
Lemma first_if_positive_keeps_one data :
  (0 < nth 0 data 0)%R ->
  first_if_positive (@mkTensor exact_arith float32 [3; 2] data) example_spec
  = Returned (@mkTensor exact_arith float32 [1; 2] (firstn 2 data)).
Proof.
  intros H. unfold first_if_positive. cbn [Tensor.data dtype].
  destruct (Rle_dec _ _) as [Hle | _]; [cbn in Hle; lra | reflexivity].
Qed.

Lemma first_if_positive_keeps_all data :
  (nth 0 data 0 <= 0)%R ->
  first_if_positive (@mkTensor exact_arith float32 [3; 2] data) example_spec
  = Returned (@mkTensor exact_arith float32 [3; 2] data).
Proof.
  intros H. unfold first_if_positive. cbn [Tensor.data dtype].
  destruct (Rle_dec _ _) as [_ | Hn];
    [reflexivity | cbn in Hn; contradiction].
Qed.

Lemma Q2R_zero : Q2R 0 = 0%R.
Proof. unfold Q2R. cbn. lra. Qed.


(** ** The networks of the categorical DQN agent test *)





